(** * YaMDb API: a shallow embedding of [api/views.py] and [reviews/models.py]

    The views are request handlers over a relational store.  The store is
    modelled as a record of tables (lists of rows in primary-key order), a
    handler as a function from the store and the request to the new store
    and the response.  Classes the views import but that live in other
    modules of the project (serializers, permission classes, the mail
    helper) and the token signer of [rest_framework_simplejwt] are the
    fields of the class [Collaborators]: every statement below holds for
    all of them. *)

From Stdlib Require Import QArith Qcanon.
From stdpp Require Import base strings list gmap numbers sorting pretty.

Open Scope Z_scope.

(** ** Data *)

(** [request.data], [serializer.validated_data] and [serializer.data]:
    dictionaries from field names to values. *)
Abbreviation Data := (gmap string string).

(** [rest_framework.status] *)
Definition HTTP_200_OK : Z := 200.
Definition HTTP_201_CREATED : Z := 201.
Definition HTTP_204_NO_CONTENT : Z := 204.
Definition HTTP_400_BAD_REQUEST : Z := 400.
Definition HTTP_401_UNAUTHORIZED : Z := 401.
Definition HTTP_403_FORBIDDEN : Z := 403.
Definition HTTP_404_NOT_FOUND : Z := 404.
Definition HTTP_405_METHOD_NOT_ALLOWED : Z := 405.

(** What a [Response] carries.  [Errors] stands for [serializer.errors]
    (and for the body of a [ValidationError]); its content is decided by the
    serializer and is not looked at here. *)
Inductive Body :=
| NoBody
| TokenBody (token : string)
| Detail (detail : string)
| Fields (fields : Data)
| Errors.

Record Response := mkResponse { status : Z; body : Body }.

(** [reviews.models.User]: an [AbstractUser] with [email], [bio] and
    [role]; [confirmation_code] is the attribute the views read and write. *)
Record User := mkUser {
  pk : nat;
  username : string;
  email : string;
  first_name : string;
  last_name : string;
  bio : string;
  role : string;
  confirmation_code : string
}.

(** [reviews.models.Title].  [category] is a nullable foreign key, [genre]
    a many-to-many relation, both given by slugs. *)
Record Title := mkTitle {
  title_id : nat;
  name : string;
  year : Z;
  description : option string;
  genre : list string;
  category : option string
}.

(** Modelled from the spec: the model [Review] that the views import is
    not declared in [reviews/models.py] (which only has the empty
    [Reviews]); the spec gives it as {id, title_id, author_id, text, score,
    created_at}.  Only the columns the views touch are kept. *)
Record Review := mkReview {
  review_id : nat;
  review_title : nat;
  review_author : nat;
  text : string;
  score : Z
}.

#[global] Instance Body_eq_dec : EqDecision Body.
Proof. solve_decision. Defined.
#[global] Instance Response_eq_dec : EqDecision Response.
Proof. solve_decision. Defined.
#[global] Instance User_eq_dec : EqDecision User.
Proof. solve_decision. Defined.
#[global] Instance Title_eq_dec : EqDecision Title.
Proof. solve_decision. Defined.
#[global] Instance Review_eq_dec : EqDecision Review.
Proof. solve_decision. Defined.

(** The store. *)
Record DB := mkDB {
  users : list User;
  titles : list Title;
  reviews : list Review
}.

(** A request as a handler sees it: the verb, the authenticated user
    ([None] for [AnonymousUser]), the parsed body and the [title_id] of the
    path. *)
Record Request := mkRequest {
  method : string;
  user : option User;
  data : Data;
  kwargs_title_id : nat
}.

(** ** Collaborators *)

(** A serializer is given by what [is_valid] computes: [Some] of the
    validated data, or [None] when the data are rejected. *)
Class Collaborators := {
  (** state of the mail helper (outbox, source of codes) *)
  Mail : Type;
  (** [api.utils.send_confirmation_email(email)]: sends and returns a code *)
  send_confirmation_email : string → Mail → string * Mail;
  (** [str(AccessToken.for_user(user))] *)
  AccessToken_for_user : User → string;
  (** validated ["username"] and ["confirmation_code"] *)
  TokenObtainWithConfirmationSerializer : Data → option (string * string);
  (** validated ["username"] and ["email"]; validation may consult the
      table (uniqueness) *)
  SignUpSerializer : list User → Data → option (string * string);
  (** [UserSerializer(instance, data=..., partial=True)] *)
  UserSerializer : list User → User → Data → option Data;
  (** validated ["text"] and ["score"] *)
  ReviewSerializer : Data → option (string * Z);
  (** [serializer.data] of the two serializers that echo a row *)
  UserSerializer_data : User → Data;
  ReviewSerializer_data : Review → Data;
  (** the backends [SearchFilter] and [DjangoFilterBackend] with
      [TitleFilter]: the rows of the title table a request keeps *)
  TitleFilter : Request → Title → bool;
  (** [has_permission] of the project's permission classes *)
  IsAdmin : Request → bool;
  IsAdminOrReadOnly : Request → bool;
  IsAuthorModerAdminOrReadOnly : Request → bool;
  (** [super().<action>] of a view set: the action as
      [rest_framework.viewsets.ModelViewSet] defines it, by the name of the
      view set and of the action *)
  ModelViewSet : string → string → DB → Request → DB * Response
}.

(** What a view method is, once bound to [self]. *)
Definition Handler : Type := DB → Request → DB * Response.

(** ** Queries *)

(** [User.objects.filter(username=...)]; a lookup by [None] is compiled to
    [IS NULL] and matches no row, the column being non-null. *)
Definition filter_username (name : option string) (us : list User) : list User :=
  match name with
  | Some n => filter (λ u, username u = n) us
  | None => []
  end.

(** [get_object_or_404(User, username=...)]: [None] stands for [Http404]. *)
Definition get_user_or_404 (n : string) (us : list User) : option User :=
  head (filter_username (Some n) us).

Definition Http404 : Response := mkResponse HTTP_404_NOT_FOUND (Detail "Not found.").

(** ** TokenObtainWithConfirmationView *)

Module TokenObtainWithConfirmationView.
Section View.
Context {co : Collaborators}.

(** [create].  [is_valid(raise_exception=True)] answers 400 with the
    errors.  The store is only read, so the handler returns the response
    alone. *)
Definition create (db : DB) (request : Request) : Response :=
  match TokenObtainWithConfirmationSerializer (data request) with
  | None => mkResponse HTTP_400_BAD_REQUEST Errors
  | Some (username, confirmation_code') =>
      if decide (username = "me") then mkResponse HTTP_400_BAD_REQUEST NoBody
      else
        match get_user_or_404 username (users db) with
        | None => Http404
        | Some user =>
            if decide (confirmation_code' = confirmation_code user)
            then mkResponse HTTP_200_OK (TokenBody (AccessToken_for_user user))
            else mkResponse HTTP_400_BAD_REQUEST NoBody
        end
  end.
End View.
End TokenObtainWithConfirmationView.

(** A token was issued when the response carries one. *)
Definition issues_token (r : Response) : bool :=
  match body r with TokenBody _ => true | _ => false end.



(** ** SignupView *)

(** The next value of the auto-incremented primary key. *)
Definition next_pk (us : list User) : nat :=
  S (foldr (λ u m, Nat.max (pk u) m) 0%nat us).

(** [instance.save()] of a row that exists: UPDATE ... WHERE pk = ... *)
Definition save_user (u : User) (us : list User) : list User :=
  (λ x, if decide (pk x = pk u) then u else x) <$> us.

(** Modelled from the spec: [SignUpSerializer.save()] is not under src/;
    the spec has signup "create" the record from {username, email}.  The
    other columns take the defaults of the model ([role] is ['user'],
    blank strings elsewhere). *)
Definition create_user (n e : string) (us : list User) : User :=
  mkUser (next_pk us) n e "" "" "" "user" "".

Definition set_confirmation_code (c : string) (u : User) : User :=
  mkUser (pk u) (username u) (email u) (first_name u) (last_name u)
         (bio u) (role u) c.

Definition set_users (us : list User) (db : DB) : DB :=
  mkDB us (titles db) (reviews db).

Module SignupView.
Section View.
Context {co : Collaborators}.

(** [post]: returns the store, the state of the mail helper and the
    response.  [existing_user], a model instance, is always true.  In the
    first message the quotation marks around me are left out. *)
Definition post (db : DB) (mail : Mail) (request : Request)
  : DB * Mail * Response :=
  let username' := data request !! "username" in
  let email' := data request !! "email" in
  if decide (username' = Some "me") then
    (db, mail,
     mkResponse HTTP_400_BAD_REQUEST
       (Detail "Недопустимое значение me для username"))
  else
    match head (filter_username username' (users db)) with
    | Some existing_user =>
        if decide (Some (email existing_user) ≠ email') then
          (db, mail,
           mkResponse HTTP_400_BAD_REQUEST
             (Detail "Несоответствие email для зарегистрированного пользователя"))
        else
          (db, mail,
           mkResponse HTTP_200_OK (Detail "Пользователь уже зарегистрирован"))
    | None =>
        match SignUpSerializer (users db) (data request) with
        | Some (n, e) =>
            let user := create_user n e (users db) in
            let '(confirmation_code', mail') :=
              send_confirmation_email (email user) mail in
            let user' := set_confirmation_code confirmation_code' user in
            (set_users (save_user user' (users db ++ [user])) db, mail',
             mkResponse HTTP_200_OK
               (Fields {[ "username" := n; "email" := e ]}))
        | None => (db, mail, mkResponse HTTP_400_BAD_REQUEST Errors)
        end
    end.
End View.
End SignupView.

(** ** UsersViewSet *)

(** [ModelSerializer.update]: [setattr(instance, attr, value)] for every
    item of the validated data.  The primary key is not a serializer
    field. *)
Definition update_instance (u : User) (validated_data : Data) : User :=
  mkUser (pk u)
         (default (username u) (validated_data !! "username"))
         (default (email u) (validated_data !! "email"))
         (default (first_name u) (validated_data !! "first_name"))
         (default (last_name u) (validated_data !! "last_name"))
         (default (bio u) (validated_data !! "bio"))
         (default (role u) (validated_data !! "role"))
         (default (confirmation_code u) (validated_data !! "confirmation_code")).

(** The stored row of a primary key. *)
Definition get_by_pk (p : nat) (us : list User) : option User :=
  head (filter (λ x, pk x = p) us).

(** [getattr(user, field)] for the columns a serializer can name. *)
Definition user_attr (field : string) (u : User) : option string :=
  if decide (field = "username") then Some (username u)
  else if decide (field = "email") then Some (email u)
  else if decide (field = "first_name") then Some (first_name u)
  else if decide (field = "last_name") then Some (last_name u)
  else if decide (field = "bio") then Some (bio u)
  else if decide (field = "role") then Some (role u)
  else if decide (field = "confirmation_code") then Some (confirmation_code u)
  else None.

Module UsersViewSet.
Section View.
Context {co : Collaborators}.

(** [update] *)
Definition update : Handler := λ db request,
  if decide (method request = "PUT")
  then (db, mkResponse HTTP_405_METHOD_NOT_ALLOWED NoBody)
  else ModelViewSet "UsersViewSet" "update" db request.

(** [get_update_me], for the two verbs of the action alike;
    [request_user] is [request.user], which [IsAuthenticated] has let
    through. *)
Definition get_update_me (db : DB) (request_user : User) (request : Request)
  : DB * Response :=
  match UserSerializer (users db) request_user (data request) with
  | Some validated_data =>
      let validated_data :=
        if decide (method request = "PATCH")
        then delete "role" validated_data
        else validated_data in
      let instance := update_instance request_user validated_data in
      (set_users (save_user instance (users db)) db,
       mkResponse HTTP_200_OK (Fields (UserSerializer_data instance)))
  | None => (db, mkResponse HTTP_400_BAD_REQUEST Errors)
  end.
End View.
End UsersViewSet.

(** ** TitleViewSet *)

(** A row of the annotated query set. *)
Record AnnotatedTitle := mkAnnotated { title : Title; rating : option Qc }.

(** The column [reviews__score] of the rows that the LEFT OUTER JOIN of a
    title with its reviews gives: one row per review, and one row of NULL
    for a title without reviews. *)
Definition reviews__score (t : Title) (rs : list Review) : list (option Z) :=
  match filter (λ r, review_title r = title_id t) rs with
  | [] => [None]
  | joined => (λ r, Some (score r)) <$> joined
  end.

Definition sum_Z (l : list Z) : Z := foldr Z.add 0 l.

(** The aggregate [Avg]: NULL values are skipped, and the average of no
    value is NULL.  The database computes in floating point; the quotient
    is taken here in the rationals. *)
Definition Avg (column : list (option Z)) : option Qc :=
  match omap id column with
  | [] => None
  | values =>
      Some (Qc_of_Z (sum_Z values) / Qc_of_Z (Z.of_nat (length values)))%Qc
  end.

(** The scores of the reviews of a title. *)
Definition title_scores (db : DB) (t : Title) : list Z :=
  score <$> filter (λ r, review_title r = title_id t) (reviews db).

Definition annotate_rating (rs : list Review) (t : Title) : AnnotatedTitle :=
  mkAnnotated t (Avg (reviews__score t rs)).

(** The order of [order_by("-year")]: the year does not increase. *)
Definition year_desc (a b : AnnotatedTitle) : Prop :=
  year (title b) ≤ year (title a).

#[global] Instance year_desc_dec a b : Decision (year_desc a b).
Proof. unfold year_desc. apply _. Defined.

Definition order_by_year_desc : list AnnotatedTitle → list AnnotatedTitle :=
  merge_sort year_desc.

Module TitleViewSet.
Section View.
Context {co : Collaborators}.

(** [http_method_names] of [django.views.View], which [ModelViewSet]
    inherits. *)
Definition ModelViewSet_http_method_names : list string :=
  ["get"; "post"; "put"; "patch"; "delete"; "head"; "options"; "trace"].

Definition http_method_names : list string :=
  filter (λ m, m ∉ ["put"]) ModelViewSet_http_method_names.

(** [get_queryset] *)
Definition get_queryset (db : DB) : list AnnotatedTitle :=
  order_by_year_desc (annotate_rating (reviews db) <$> titles db).

(** [filter_queryset(get_queryset())], as [list] and [get_object] call
    it. *)
Definition filter_queryset (db : DB) (request : Request) : list AnnotatedTitle :=
  filter (λ a, TitleFilter request (title a) = true) (get_queryset db).

(** Modelled from the spec: [GetTitleSerializer], which [list] and
    [retrieve] use, is not under src/; the spec has their responses
    "include the computed rating", so a response row is the annotated row
    itself.  [retrieve] answers the row of the path's id; [None] stands for
    [Http404]. *)
Definition retrieve (db : DB) (request : Request) : option AnnotatedTitle :=
  head (filter (λ a, title_id (title a) = kwargs_title_id request)
               (filter_queryset db request)).

Definition list (db : DB) (request : Request) : list AnnotatedTitle :=
  filter_queryset db request.
End View.
End TitleViewSet.

(** ** ReviewViewSet *)

(** What a handler may raise. *)
Inductive Exception :=
| SuspiciousOperation (msg : string)
| Http404_raised.

(** What becomes of an exception that leaves a view: [Http404] is answered
    by the exception handler of the framework, [SuspiciousOperation] by
    Django with "400 Bad Request". *)
Definition handle_exception (e : Exception) : Response :=
  match e with
  | SuspiciousOperation _ => mkResponse HTTP_400_BAD_REQUEST NoBody
  | Http404_raised => Http404
  end.

Definition next_review_id (rs : list Review) : nat :=
  S (foldr (λ r m, Nat.max (review_id r) m) 0%nat rs).

Definition set_reviews (rs : list Review) (db : DB) : DB :=
  mkDB (users db) (titles db) rs.

(** [Review.objects.filter(title=..., author=...)] *)
Definition filter_title_author (t a : nat) (rs : list Review) : list Review :=
  filter (λ r, review_title r = t ∧ review_author r = a) rs.

Module ReviewViewSet.
Section View.
Context {co : Collaborators}.

Definition http_method_names : list string :=
  filter (λ m, m ∉ ["put"]) TitleViewSet.ModelViewSet_http_method_names.

(** [get_title]: [get_object_or_404(Title, id=...)] *)
Definition get_title (db : DB) (request : Request) : Exception + Title :=
  match head (filter (λ t, title_id t = kwargs_title_id request) (titles db)) with
  | Some t => inr t
  | None => inl Http404_raised
  end.

(** [perform_create]; [serializer] is what [is_valid] of the serializer
    gives, [author] is [self.request.user].  The row is inserted with the
    next id. *)
Definition perform_create (db : DB) (author : User) (request : Request)
    (serializer : option (string * Z)) : Exception + DB :=
  let title := kwargs_title_id request in
  if decide (filter_title_author title (pk author) (reviews db) ≠ [])
  then inl (SuspiciousOperation "Invalid JSON")
  else
    match serializer with
    | Some (text', score') =>
        match get_title db request with
        | inr t =>
            inr (set_reviews
                   (reviews db ++
                    [mkReview (next_review_id (reviews db)) (title_id t)
                              (pk author) text' score'])
                   db)
        | inl e => inl e
        end
    | None => inr db
    end.

(** [create], which is [CreateModelMixin.create]: validate, answering
    400 on errors, [perform_create], answer 201 with the row. *)
Definition create (db : DB) (author : User) (request : Request)
  : DB * Response :=
  match ReviewSerializer (data request) with
  | None => (db, mkResponse HTTP_400_BAD_REQUEST Errors)
  | Some validated =>
      match perform_create db author request (Some validated) with
      | inl e => (db, handle_exception e)
      | inr db' =>
          (db', mkResponse HTTP_201_CREATED
                  (from_option (λ r, Fields (ReviewSerializer_data r)) NoBody
                               (last (reviews db'))))
      end
  end.

(** [partial_update] and [destroy] are inherited.  The serializer
    validates the text and the score only ([perform_create] has to pass the
    author and the title to [save]), so a partial update writes those two
    columns of the row of the given id, and [destroy] deletes the row. *)
Definition partial_update (db : DB) (id : nat) (text' : option string)
    (score' : option Z) : DB :=
  set_reviews
    ((λ r, if decide (review_id r = id)
           then mkReview (review_id r) (review_title r) (review_author r)
                         (default (text r) text') (default (score r) score')
           else r)
       <$> reviews db)
    db.

Definition destroy (db : DB) (id : nat) : DB :=
  set_reviews (filter (λ r, review_id r ≠ id) (reviews db)) db.
End View.
End ReviewViewSet.

(** The operations on reviews, and a run of them. *)
Inductive ReviewOp :=
| Create (author : User) (request : Request)
| PartialUpdate (id : nat) (text' : option string) (score' : option Z)
| Destroy (id : nat).

Definition apply_op {co : Collaborators} (db : DB) (op : ReviewOp) : DB :=
  match op with
  | Create author request => (ReviewViewSet.create db author request).1
  | PartialUpdate id text' score' => ReviewViewSet.partial_update db id text' score'
  | Destroy id => ReviewViewSet.destroy db id
  end.

(** At most one review per (title, author) pair. *)
Definition review_key (r : Review) : nat * nat :=
  (review_title r, review_author r).

Definition unique_reviews (db : DB) : Prop :=
  NoDup (review_key <$> reviews db).


(** ** Dispatch

    [rest_framework.views.APIView.dispatch], as the router binds the view
    sets: [initial] checks the permissions, then the handler is looked up by
    the lowered verb, which must be in [http_method_names]. *)

Definition ascii_lower (c : Ascii.ascii) : Ascii.ascii :=
  let n := Ascii.nat_of_ascii c in
  if ((65 <=? n)%nat && (n <=? 90)%nat)%bool
  then Ascii.ascii_of_nat (n + 32)
  else c.

Fixpoint lower (s : string) : string :=
  match s with
  | EmptyString => EmptyString
  | String c s' => String (ascii_lower c) (lower s')
  end.

(** [rest_framework.permissions] *)
Definition SAFE_METHODS : list string := ["GET"; "HEAD"; "OPTIONS"].

Definition IsAuthenticated (request : Request) : bool :=
  bool_decide (is_Some (user request)).

Definition IsAuthenticatedOrReadOnly (request : Request) : bool :=
  bool_decide (method request ∈ SAFE_METHODS) || IsAuthenticated request.

(** [permission_denied]: [NotAuthenticated] (401, the JWT authenticator
    giving the challenge header) when no user was authenticated,
    [PermissionDenied] (403) otherwise. *)
Definition permission_denied (request : Request) : Response :=
  match user request with
  | None => mkResponse HTTP_401_UNAUTHORIZED (Detail "Not authenticated.")
  | Some _ => mkResponse HTTP_403_FORBIDDEN (Detail "Permission denied.")
  end.

(** [check_permissions]: the first class that refuses decides. *)
Fixpoint check_permissions (permission_classes : list (Request → bool))
    (request : Request) : option Response :=
  match permission_classes with
  | [] => None
  | has_permission :: rest =>
      if has_permission request then check_permissions rest request
      else Some (permission_denied request)
  end.

Definition http_method_not_allowed : Handler := λ db _,
  (db, mkResponse HTTP_405_METHOD_NOT_ALLOWED (Detail "Method not allowed.")).

(** A view as [as_view] sets it up: the attributes of the class and the
    handlers bound to the verbs. *)
Record View := mkView {
  view_http_method_names : list string;
  permission_classes : list (Request → bool);
  handlers : gmap string Handler
}.

Definition dispatch (v : View) : Handler := λ db request,
  match check_permissions (permission_classes v) request with
  | Some denied => (db, denied)
  | None =>
      let m := lower (method request) in
      let handler :=
        if decide (m ∈ view_http_method_names v)
        then default http_method_not_allowed (handlers v !! m)
        else http_method_not_allowed in
      handler db request
  end.

(** The routes of the router: the list and the detail route of each view
    set, and the route of the extra action [me]. *)
Inductive Endpoint :=
| UsersList | UsersMe | UsersDetail
| TitlesList | TitlesDetail
| ReviewsList | ReviewsDetail
| CommentsList | CommentsDetail.

Inductive Resource := Users | Titles | Reviews | Comments.

Definition resource (e : Endpoint) : Resource :=
  match e with
  | UsersList | UsersMe | UsersDetail => Users
  | TitlesList | TitlesDetail => Titles
  | ReviewsList | ReviewsDetail => Reviews
  | CommentsList | CommentsDetail => Comments
  end.

(** [Route.mapping] of [rest_framework.routers.SimpleRouter] and the
    [methods] of the action [me]. *)
Definition mapping (e : Endpoint) : list (string * string) :=
  match e with
  | UsersList | TitlesList | ReviewsList | CommentsList =>
      [("get", "list"); ("post", "create")]
  | UsersDetail | TitlesDetail | ReviewsDetail | CommentsDetail =>
      [("get", "retrieve"); ("put", "update");
       ("patch", "partial_update"); ("delete", "destroy")]
  | UsersMe => [("get", "get_update_me"); ("patch", "get_update_me")]
  end.

Section Router.
Context {co : Collaborators}.

(** The handlers that need the authenticated user are reached only
    behind a permission class that asks for one. *)
Definition with_user (h : DB → User → Request → DB * Response) : Handler :=
  λ db request,
    match user request with
    | Some u => h db u request
    | None => (db, permission_denied request)
    end.

(** [getattr(self, action)]: the methods the view sets of [views.py]
    define, and the inherited ones.  [partial_update] of
    [UpdateModelMixin] calls [self.update]. *)
Definition getattr (r : Resource) (action : string) : Handler :=
  match r with
  | Users =>
      if decide (action = "update") then UsersViewSet.update
      else if decide (action = "partial_update") then UsersViewSet.update
      else if decide (action = "get_update_me")
           then with_user UsersViewSet.get_update_me
      else ModelViewSet "UsersViewSet" action
  | Titles => ModelViewSet "TitleViewSet" action
  | Reviews =>
      if decide (action = "create") then with_user ReviewViewSet.create
      else ModelViewSet "ReviewViewSet" action
  | Comments => ModelViewSet "CommentViewSet" action
  end.

Definition CommentViewSet_http_method_names : list string :=
  filter (λ m, m ∉ ["put"]) TitleViewSet.ModelViewSet_http_method_names.

Definition http_method_names (r : Resource) : list string :=
  match r with
  | Users => TitleViewSet.ModelViewSet_http_method_names
  | Titles => TitleViewSet.http_method_names
  | Reviews => ReviewViewSet.http_method_names
  | Comments => CommentViewSet_http_method_names
  end.

Definition get_permissions (e : Endpoint) : list (Request → bool) :=
  match e with
  | UsersMe => [IsAuthenticated]
  | UsersList | UsersDetail => [IsAdmin]
  | TitlesList | TitlesDetail => [IsAdminOrReadOnly]
  | ReviewsList | ReviewsDetail | CommentsList | CommentsDetail =>
      [IsAuthenticatedOrReadOnly; IsAuthorModerAdminOrReadOnly]
  end.

(** [as_view(actions)]: each verb of the mapping is bound to its action,
    [head] to the action of [get]; [options] is a method of every view. *)
Definition as_view (e : Endpoint) : View :=
  let bound : gmap string Handler :=
    list_to_map ((λ ma, (ma.1, getattr (resource e) ma.2)) <$> mapping e) in
  let bound :=
    match bound !! "get" with
    | Some h => <["head" := h]> bound
    | None => bound
    end in
  mkView (http_method_names (resource e))
         (get_permissions e)
         (<["options" := ModelViewSet "APIView" "options"]> bound).

(** The endpoint answering a request. *)
Definition serve (e : Endpoint) : Handler := dispatch (as_view e).
End Router.

(** ** A concrete set of collaborators

    The handlers are run below on concrete stores and requests.  For that
    the collaborators are fixed as the spec describes them: serializers that
    ask for their fields, a mail helper that numbers its codes and keeps an
    outbox, permission classes that read the role of the caller. *)

Definition required (a b : string) (d : Data) : option (string * string) :=
  a' ← d !! a; b' ← d !! b; Some (a', b').

Definition parse_score (s : string) : option Z :=
  (list_to_map [("1", 1); ("2", 2); ("3", 3); ("4", 4); ("5", 5);
                ("6", 6); ("7", 7); ("8", 8); ("9", 9); ("10", 10)]
     : gmap string Z) !! s.

Definition is_admin (request : Request) : bool :=
  match user request with
  | Some u => bool_decide (role u = "admin")
  | None => false
  end.

Definition yamdb : Collaborators := {|
  Mail := list (string * string);
  send_confirmation_email := λ e outbox,
    let code := "code-" +:+ pretty (length outbox) in
    (code, outbox ++ [(e, code)]);
  AccessToken_for_user := λ u, "token-" +:+ username u;
  TokenObtainWithConfirmationSerializer := required "username" "confirmation_code";
  SignUpSerializer := λ us d,
    '(n, e) ← required "username" "email" d;
    if decide (Exists (λ u, username u = n ∨ email u = e) us)
    then None else Some (n, e);
  UserSerializer := λ _ _ d, Some d;
  ReviewSerializer := λ d,
    t ← d !! "text"; s ← d !! "score" ≫= parse_score; Some (t, s);
  UserSerializer_data := λ u,
    {[ "username" := username u; "email" := email u;
       "bio" := bio u; "role" := role u ]};
  ReviewSerializer_data := λ r, {[ "text" := text r ]};
  TitleFilter := λ _ _, true;
  IsAdmin := is_admin;
  IsAdminOrReadOnly := λ request,
    bool_decide (method request ∈ SAFE_METHODS) || is_admin request;
  IsAuthorModerAdminOrReadOnly := λ _, true;
  ModelViewSet := λ _ _ db _, (db, mkResponse HTTP_200_OK NoBody)
|}.

(** A store: two users and an administrator, two titles, and the reviews
    of the first title by the two users. *)
Definition bob : User := mkUser 1 "bob" "bob@x.com" "" "" "" "user" "1234".
Definition alice : User := mkUser 2 "alice" "alice@x.com" "" "" "" "user" "9999".
Definition root : User := mkUser 3 "root" "root@x.com" "" "" "" "admin" "".
Definition carol : User := mkUser 4 "carol" "carol@x.com" "" "" "" "user" "".
Definition dave : User := mkUser 5 "dave" "dave@x.com" "" "" "" "user" "".
Definition reserved : User := mkUser 6 "me" "me@x.com" "" "" "" "user" "0000".

Definition solaris : Title := mkTitle 1 "Solaris" 1961 None [] None.
Definition stalker : Title := mkTitle 2 "Stalker" 1979 None [] None.

Definition store : DB :=
  mkDB [bob; alice; root; carol; dave] [solaris; stalker]
       [mkReview 1 1 1 "deep" 8; mkReview 2 1 2 "slow" 7].

(** The same store with a user whose name is the reserved "me". *)
Definition store_with_me : DB :=
  mkDB [bob; alice; root; carol; dave; reserved] [solaris; stalker]
       [mkReview 1 1 1 "deep" 8; mkReview 2 1 2 "slow" 7].

Definition request_of (m : string) (u : option User)
    (d : list (string * string)) (t : nat) : Request :=
  mkRequest m u (list_to_map d) t.

(** The requests the handlers are run on. *)
Definition no_mail : @Mail yamdb := ([] : list (string * string)).



Definition signup_request (n e : string) : Request :=
  request_of "POST" None [("username", n); ("email", e)] 0.

Definition review_request (t : nat) : Request :=
  request_of "POST" None [("text", "again"); ("score", "9")] t.

Definition me_request : Request :=
  request_of "POST" None
    [("username", "me"); ("email", "me@x.com"); ("confirmation_code", "0000")] 0.


Definition me_get : Request :=
  request_of "GET" (Some bob) [("role", "admin"); ("bio", "hi")] 0.

Definition title_request (t : nat) : Request := request_of "GET" None [] t.

Definition put_request (u : option User) : Request := request_of "PUT" u [] 1.

(** ** More of the views and of the models *)

(** [ReviewViewSet.get_queryset]: the reviews of the title of the path,
    [Http404] being raised when there is no such title. *)
Definition ReviewViewSet_get_queryset (db : DB) (request : Request)
  : Exception + list Review :=
  match ReviewViewSet.get_title db request with
  | inr title => inr (filter (λ r, review_title r = title_id title) (reviews db))
  | inl e => inl e
  end.

(** Every review is of a title of the table. *)
Definition reviews_have_titles (db : DB) : Prop :=
  ∀ r, r ∈ reviews db → ∃ t, t ∈ titles db ∧ title_id t = review_title r.

(** [self.action], as [ViewSetMixin.initialize_request] sets it:
    [metadata] for OPTIONS, otherwise the action that [as_view] has bound to
    the lowered verb ([head] being bound like [get]), [None] when there is
    none. *)
Definition action_map (e : Endpoint) : gmap string string :=
  let bound : gmap string string := list_to_map (mapping e) in
  match bound !! "get" with
  | Some a => <["head" := a]> bound
  | None => bound
  end.

Definition view_action (e : Endpoint) (request : Request) : option string :=
  let m := lower (method request) in
  if decide (m = "options") then Some "metadata" else action_map e !! m.

(** [TitleViewSet.get_serializer_class] *)
Inductive TitleSerializerClass := GetTitleSerializer | TitleSerializer.

Definition TitleViewSet_get_serializer_class (action : option string)
  : TitleSerializerClass :=
  if decide (action ∈ [Some "list"; Some "retrieve"])
  then GetTitleSerializer
  else TitleSerializer.






(** *** CommentViewSet *)

(** Modelled from the spec: the model [Comment] that the views use is not
    declared in [reviews/models.py] (which only has the empty [Comments]);
    the spec gives it as {id, review_id, author_id, text, created_at}. *)
Record Comment := mkComment {
  comment_id : nat;
  comment_review : nat;
  comment_author : nat;
  comment_text : string
}.

Definition next_comment_id (cs : list Comment) : nat :=
  S (foldr (λ c m, Nat.max (comment_id c) m) 0%nat cs).

Module CommentViewSet.
Section View.
(** [CommentSerializer]: the validated text, and the echoed row. *)
Variable CommentSerializer : Data → option string.
Variable CommentSerializer_data : Comment → Data.

(** [get_review]; [review_id] is [self.kwargs.get("review_id")].  The
    [title_id] of the path is not looked at. *)
Definition get_review (db : DB) (review_id' : nat) : Exception + Review :=
  match head (filter (λ r, review_id r = review_id') (reviews db)) with
  | Some r => inr r
  | None => inl Http404_raised
  end.

(** [get_queryset] *)
Definition get_queryset (db : DB) (comments : list Comment) (review_id' : nat)
  : Exception + list Comment :=
  match get_review db review_id' with
  | inr review => inr (filter (λ c, comment_review c = review_id review) comments)
  | inl e => inl e
  end.

(** [perform_create]; [text'] is the validated data. *)
Definition perform_create (db : DB) (comments : list Comment) (author : User)
    (review_id' : nat) (text' : string) : Exception + list Comment :=
  match get_review db review_id' with
  | inr review =>
      inr (comments ++
           [mkComment (next_comment_id comments) (review_id review)
                      (pk author) text'])
  | inl e => inl e
  end.

(** [create] is [CreateModelMixin.create]. *)
Definition create (db : DB) (comments : list Comment) (author : User)
    (review_id' : nat) (request : Request) : list Comment * Response :=
  match CommentSerializer (data request) with
  | None => (comments, mkResponse HTTP_400_BAD_REQUEST Errors)
  | Some text' =>
      match perform_create db comments author review_id' text' with
      | inl e => (comments, handle_exception e)
      | inr comments' =>
          (comments',
           mkResponse HTTP_201_CREATED
             (from_option (λ c, Fields (CommentSerializer_data c)) NoBody
                          (last comments')))
      end
  end.

(** An author posts the same body [n] times. *)
Fixpoint post_comments (db : DB) (comments : list Comment) (author : User)
    (review_id' : nat) (request : Request) (n : nat)
  : list Comment * list Response :=
  match n with
  | O => (comments, [])
  | S n' =>
      let '(comments', resp) := create db comments author review_id' request in
      let '(comments'', resps) :=
        post_comments db comments' author review_id' request n' in
      (comments'', resp :: resps)
  end.
End View.
End CommentViewSet.

(** *** [__str__] of the models *)






(** * Properties *)

Section Properties.
Context {co : Collaborators}.

(** ** Token exchange *)





(** ** Signup *)

Lemma post_me db mail request :
  data request !! "username" = Some "me" →
  ∃ resp, SignupView.post db mail request = (db, mail, resp) ∧
          status resp = HTTP_400_BAD_REQUEST.
Proof.
  intros Hn. unfold SignupView.post. rewrite Hn.
  rewrite decide_True by done. by eexists.
Qed.


(** C4: a request whose username is "me" is answered 400 by the signup
    endpoint, the table of users and the mail helper being left as they
    were, and 400 without a token by the token endpoint (which only reads
    the store), whether validation refuses the request or validates its
    username as "me". *)
Theorem me_rejected db mail request :
  data request !! "username" = Some "me" →
  (∀ n c, TokenObtainWithConfirmationSerializer (data request) = Some (n, c) →
          n = "me") →
  (∃ resp, SignupView.post db mail request = (db, mail, resp) ∧
           status resp = HTTP_400_BAD_REQUEST) ∧
  status (TokenObtainWithConfirmationView.create db request)
    = HTTP_400_BAD_REQUEST ∧
  issues_token (TokenObtainWithConfirmationView.create db request) = false.
Proof.
  intros Hn Hval. split; [by apply post_me|].
  unfold TokenObtainWithConfirmationView.create.
  destruct (TokenObtainWithConfirmationSerializer (data request))
    as [[n c]|] eqn:Hser; [|done].
  rewrite (Hval n c eq_refl). by rewrite decide_True.
Qed.

(** C2, as amended: when the username of a signup request is not the
    reserved "me" and belongs to an existing user, the answer is 200 if the
    submitted email is the stored one and 400 otherwise, and in both cases
    the store and the mail helper are left as they were. *)
Theorem signup_existing_user db mail request n u :
  data request !! "username" = Some n →
  n ≠ "me" →
  head (filter_username (Some n) (users db)) = Some u →
  (data request !! "email" = Some (email u) →
     ∃ resp, SignupView.post db mail request = (db, mail, resp) ∧
             status resp = HTTP_200_OK) ∧
  (data request !! "email" ≠ Some (email u) →
     ∃ resp, SignupView.post db mail request = (db, mail, resp) ∧
             status resp = HTTP_400_BAD_REQUEST).
Proof.
  intros Hn Hme Hu. unfold SignupView.post. rewrite Hn, Hu.
  rewrite decide_False by congruence.
  split; intros He.
  - rewrite decide_False by (intros Hne; by apply Hne). by eexists.
  - rewrite decide_True by congruence. by eexists.
Qed.

Lemma next_pk_fresh us x : x ∈ us → (pk x < next_pk us)%nat.
Proof.
  unfold next_pk. induction us as [|y us IH]; [by intros ?%elem_of_nil|].
  intros [->|Hx]%elem_of_cons; cbn [foldr]; [lia|].
  specialize (IH Hx). lia.
Qed.

Lemma save_user_other u us :
  (∀ x, x ∈ us → pk x ≠ pk u) → save_user u us = us.
Proof.
  intros Hfresh. unfold save_user.
  induction us as [|y us IH]; [done|]. rewrite fmap_cons.
  rewrite decide_False by (apply Hfresh; left).
  f_equal. apply IH. intros x Hx. apply Hfresh. by right.
Qed.

Lemma save_user_created c u us :
  pk u = next_pk us →
  save_user (set_confirmation_code c u) (us ++ [u])
  = us ++ [set_confirmation_code c u].
Proof.
  intros Hpk. unfold save_user at 1. rewrite fmap_app.
  f_equal.
  - apply save_user_other. intros x Hx. cbn.
    rewrite Hpk. pose proof (next_pk_fresh us x Hx). lia.
  - cbn. by rewrite decide_True.
Qed.


(** ** The "me" action *)

Lemma get_by_pk_save_user u u' us :
  pk u' = pk u →
  get_by_pk (pk u) us = Some u →
  get_by_pk (pk u) (save_user u' us) = Some u'.
Proof.
  intros Hpk. unfold get_by_pk, save_user. rewrite Hpk.
  induction us as [|y us IH]; [done|]. rewrite fmap_cons.
  destruct (decide (pk y = pk u)) as [Hy|Hy].
  - intros _. by rewrite filter_cons_True by congruence.
  - rewrite !filter_cons_False by done. exact IH.
Qed.

Lemma user_attr_update_instance u vd field v :
  is_Some (user_attr field u) →
  vd !! field = Some v →
  user_attr field (update_instance u vd) = Some v.
Proof.
  unfold user_attr. intros Hattr Hv.
  repeat (case_decide; [subst field; cbn; by rewrite Hv|]).
  by destruct Hattr.
Qed.


Lemma get_update_me_valid db u request vd :
  get_by_pk (pk u) (users db) = Some u →
  UserSerializer (users db) u (data request) = Some vd →
  let saved :=
    update_instance u
      (if decide (method request = "PATCH") then delete "role" vd else vd) in
  status (UsersViewSet.get_update_me db u request).2 = HTTP_200_OK ∧
  get_by_pk (pk u) (users (UsersViewSet.get_update_me db u request).1)
  = Some saved.
Proof.
  intros Hu Hser saved. unfold UsersViewSet.get_update_me. rewrite Hser.
  cbn [fst snd status set_users users]. split; [done|].
  by apply get_by_pk_save_user.
Qed.


(** C10: the handler of "me" validates and saves the body whatever the
    verb, and drops the role for PATCH only: for a GET whose body the
    serializer accepts, the answer is 200 and the stored row of the caller
    is updated with all the validated data, so that every validated field,
    the role among them, is persisted; for a PATCH the role is removed
    first. *)
Theorem get_me_saves_body db u request vd :
  get_by_pk (pk u) (users db) = Some u →
  UserSerializer (users db) u (data request) = Some vd →
  let out := UsersViewSet.get_update_me db u request in
  (method request = "GET" →
     status out.2 = HTTP_200_OK ∧
     get_by_pk (pk u) (users out.1) = Some (update_instance u vd) ∧
     (∀ r, vd !! "role" = Some r →
           role <$> get_by_pk (pk u) (users out.1) = Some r) ∧
     (∀ field v, is_Some (user_attr field u) → vd !! field = Some v →
                 get_by_pk (pk u) (users out.1) ≫= user_attr field = Some v)) ∧
  (method request = "PATCH" →
     status out.2 = HTTP_200_OK ∧
     get_by_pk (pk u) (users out.1)
     = Some (update_instance u (delete "role" vd))).
Proof.
  intros Hu Hser out.
  destruct (get_update_me_valid db u request vd Hu Hser) as [Hst Hsaved].
  fold out in Hst, Hsaved.
  split; intros Hm; rewrite Hm in Hsaved.
  - rewrite decide_False in Hsaved by done.
    split; [done|]. split; [done|]. rewrite Hsaved. split.
    + intros r Hr. cbn. by rewrite Hr.
    + intros field v Hattr Hv. cbn [mbind option_bind].
      by apply user_attr_update_instance.
  - rewrite decide_True in Hsaved by done. done.
Qed.

(** ** Reviews *)











(** ** Titles *)

Lemma Avg_reviews__score db t :
  Avg (reviews__score t (reviews db))
  = match title_scores db t with
    | [] => None
    | scores =>
        Some (Qc_of_Z (sum_Z scores) / Qc_of_Z (Z.of_nat (length scores)))%Qc
    end.
Proof.
  unfold reviews__score, title_scores.
  destruct (filter _ (reviews db)) as [|r joined]; [done|].
  unfold Avg.
  assert (omap id ((λ r, Some (score r)) <$> r :: joined)
          = score <$> r :: joined) as ->; [|done].
  generalize (r :: joined). intros l.
  induction l as [|x l IH]; [done|]. cbn. by f_equal.
Qed.

Lemma elem_of_get_queryset db a :
  a ∈ TitleViewSet.get_queryset db ↔
  ∃ t, t ∈ titles db ∧ a = annotate_rating (reviews db) t.
Proof.
  unfold TitleViewSet.get_queryset, order_by_year_desc.
  rewrite merge_sort_Permutation, list_elem_of_fmap.
  split; intros (t & ? & ?); by exists t.
Qed.

Lemma served_in_queryset db request a :
  a ∈ TitleViewSet.list db request ∨ TitleViewSet.retrieve db request = Some a →
  a ∈ TitleViewSet.get_queryset db.
Proof.
  unfold TitleViewSet.list, TitleViewSet.retrieve, TitleViewSet.filter_queryset.
  intros [Ha|Ha].
  - by apply list_elem_of_filter in Ha as [_ ?].
  - apply head_Some_elem_of in Ha.
    apply list_elem_of_filter in Ha as [_ Ha].
    by apply list_elem_of_filter in Ha as [_ ?].
Qed.


#[local] Instance year_desc_trans : Transitive year_desc.
Proof. unfold year_desc. intros a b c ??. lia. Qed.

#[local] Instance year_desc_total : Total year_desc.
Proof. unfold year_desc. intros a b. lia. Qed.

Lemma StronglySorted_filter {A} (R : relation A) (P : A → Prop)
    `{!∀ x, Decision (P x)} (l : list A) :
  StronglySorted R l → StronglySorted R (filter P l).
Proof.
  induction 1 as [|x l _ IH Hx]; [constructor|].
  rewrite filter_cons. case_decide; [|done].
  constructor; [done|].
  apply Forall_forall. intros y [_ Hy]%list_elem_of_filter.
  by eapply Forall_forall in Hx.
Qed.

Lemma StronglySorted_adjacent {A} (R : relation A) (l : list A) i a b :
  StronglySorted R l → l !! i = Some a → l !! S i = Some b → R a b.
Proof.
  intros Hsorted. revert i.
  induction Hsorted as [|x l _ IH Hx]; intros i; [done|].
  destruct i as [|i]; cbn.
  - intros [= ->] Hb. eapply Forall_forall in Hx; [done|].
    by eapply list_elem_of_lookup_2.
  - apply IH.
Qed.

(** C9: in a response of the list endpoint the year never increases from
    a title to the next one. *)
Theorem list_ordered_by_year_desc db request i a b :
  TitleViewSet.list db request !! i = Some a →
  TitleViewSet.list db request !! S i = Some b →
  year (title b) ≤ year (title a).
Proof.
  apply (StronglySorted_adjacent year_desc).
  unfold TitleViewSet.list, TitleViewSet.filter_queryset.
  apply StronglySorted_filter.
  unfold TitleViewSet.get_queryset, order_by_year_desc.
  apply StronglySorted_merge_sort; apply _.
Qed.

(** ** Full replace *)

Lemma check_permissions_denied classes request denied :
  check_permissions classes request = Some denied →
  denied = permission_denied request.
Proof.
  induction classes as [|p classes IH]; [done|]. cbn.
  destruct (p request); [done|]. by intros [= <-].
Qed.

Lemma permission_denied_status request :
  status (permission_denied request) = HTTP_401_UNAUTHORIZED ∨
  status (permission_denied request) = HTTP_403_FORBIDDEN.
Proof. unfold permission_denied. destruct (user request); auto. Qed.

Lemma put_excluded :
  "put" ∉ filter (λ m, m ∉ ["put"]) TitleViewSet.ModelViewSet_http_method_names.
Proof. intros [Hput _]%list_elem_of_filter. apply Hput. left. Qed.

Lemma put_allowed_on_users :
  "put" ∈ TitleViewSet.ModelViewSet_http_method_names.
Proof. unfold TitleViewSet.ModelViewSet_http_method_names. set_solver. Qed.

Lemma put_unbound_list :
  handlers (as_view UsersList) !! "put" = None.
Proof. reflexivity. Qed.

Lemma put_unbound_me :
  handlers (as_view UsersMe) !! "put" = None.
Proof. reflexivity. Qed.

Lemma put_bound_detail :
  handlers (as_view UsersDetail) !! "put" = Some (getattr Users "update").
Proof. reflexivity. Qed.

Lemma put_handler e db request :
  method request = "PUT" →
  let v := as_view e in
  (if decide (lower "PUT" ∈ view_http_method_names v)
   then default http_method_not_allowed (handlers v !! lower "PUT")
   else http_method_not_allowed) db request
  = (db, mkResponse HTTP_405_METHOD_NOT_ALLOWED
           (match e with UsersDetail => NoBody
                       | _ => Detail "Method not allowed." end)).
Proof.
  intros Hm v. subst v.
  change (lower "PUT") with "put".
  destruct (resource e) eqn:Hres.
  - rewrite decide_True
      by (unfold as_view; rewrite Hres; apply put_allowed_on_users).
    destruct e; try discriminate Hres.
    + by rewrite put_unbound_list.
    + by rewrite put_unbound_me.
    + rewrite put_bound_detail. cbn [default resource getattr].
      rewrite decide_True by done.
      unfold UsersViewSet.update, id. cbv beta. by rewrite decide_True.
  - rewrite decide_False
      by (unfold as_view; rewrite Hres; apply put_excluded).
    by destruct e.
  - rewrite decide_False
      by (unfold as_view; rewrite Hres; apply put_excluded).
    by destruct e.
  - rewrite decide_False
      by (unfold as_view; rewrite Hres; apply put_excluded).
    by destruct e.
Qed.

(** C7, as amended: a PUT to the users, titles, reviews or comments
    resources never changes the store; it is answered 405 when the
    permission classes of the view let the request through, and 401 or 403,
    as the permission check decides, when they do not. *)
Theorem put_not_allowed e db request :
  method request = "PUT" →
  let out := serve e db request in
  out.1 = db ∧
  (check_permissions (get_permissions e) request = None →
     status out.2 = HTTP_405_METHOD_NOT_ALLOWED) ∧
  (check_permissions (get_permissions e) request ≠ None →
     out.2 = permission_denied request ∧
     (status out.2 = HTTP_401_UNAUTHORIZED ∨ status out.2 = HTTP_403_FORBIDDEN)).
Proof.
  intros Hm out. subst out. unfold serve, dispatch.
  change (permission_classes (as_view e)) with (get_permissions e).
  destruct (check_permissions (get_permissions e) request) as [denied|] eqn:Hp.
  - apply check_permissions_denied in Hp as ->.
    split; [done|]. split; [done|]. intros _.
    split; [done|]. apply permission_denied_status.
  - cbv zeta. rewrite Hm, (put_handler e db request Hm).
    split; [done|]. split; [done|]. by intros [].
Qed.
End Properties.

(** * Further properties of the handlers *)

Section Further.
Context {co : Collaborators}.

(** ** Token exchange *)


(** ** Signup *)

Lemma post_created db mail request n e :
  data request !! "username" ≠ Some "me" →
  head (filter_username (data request !! "username") (users db)) = None →
  SignUpSerializer (users db) (data request) = Some (n, e) →
  SignupView.post db mail request
  = (set_users
       (users db ++
        [mkUser (next_pk (users db)) n e "" "" "" "user"
                (send_confirmation_email e mail).1])
       db,
     (send_confirmation_email e mail).2,
     mkResponse HTTP_200_OK (Fields {[ "username" := n; "email" := e ]})).
Proof.
  intros Hme Hnone Hser. unfold SignupView.post.
  rewrite decide_False by done. rewrite Hnone, Hser.
  cbn [email create_user].
  destruct (send_confirmation_email e mail) as [code mail'] eqn:Hsent.
  by rewrite save_user_created.
Qed.

Lemma post_cases db mail request :
  (∃ resp, SignupView.post db mail request = (db, mail, resp) ∧
           (status resp = HTTP_400_BAD_REQUEST ∨
            status resp = HTTP_200_OK ∧
            is_Some (head (filter_username (data request !! "username")
                                           (users db))))) ∨
  (∃ n e,
      data request !! "username" ≠ Some "me" ∧
      head (filter_username (data request !! "username") (users db)) = None ∧
      SignUpSerializer (users db) (data request) = Some (n, e)).
Proof.
  unfold SignupView.post.
  destruct (decide (data request !! "username" = Some "me")) as [|Hme].
  { left. eexists. split; [done|]. by left. }
  destruct (head _) as [u|] eqn:Hu.
  { left. destruct (decide (_ ≠ _)); eexists; (split; [done|]);
      [by left|right; by split]. }
  destruct (SignUpSerializer (users db) (data request)) as [[n e]|] eqn:Hser.
  - right. by exists n, e.
  - left. eexists. split; [done|]. by left.
Qed.


Lemma users_set_users us db : users (set_users us db) = us.
Proof. reflexivity. Qed.

Lemma get_user_or_404_created us u n :
  username u = n →
  get_user_or_404 n us = None →
  get_user_or_404 n (us ++ [u]) = Some u.
Proof.
  unfold get_user_or_404, filter_username. intros Hu Hnone.
  rewrite filter_app.
  destruct (filter _ us); [|done].
  by rewrite filter_cons_True.
Qed.


(** Signup is idempotent: when a signup that echoes its username and
    email has created the user, the same request sent again is answered 200
    and changes neither the store nor the mail helper, so that no second
    code is sent. *)
Theorem signup_twice db mail request n e :
  data request !! "username" = Some n →
  data request !! "email" = Some e →
  n ≠ "me" →
  get_user_or_404 n (users db) = None →
  SignUpSerializer (users db) (data request) = Some (n, e) →
  let once := SignupView.post db mail request in
  let twice := SignupView.post once.1.1 once.1.2 request in
  status once.2 = HTTP_200_OK ∧
  status twice.2 = HTTP_200_OK ∧
  twice.1 = once.1.
Proof.
  intros Hn He Hme Hfree Hser once twice. subst twice once.
  assert (data request !! "username" ≠ Some "me") as Hme' by congruence.
  assert (head (filter_username (data request !! "username") (users db)) = None)
    as Hnone by (by rewrite Hn).
  rewrite (post_created _ _ _ _ _ Hme' Hnone Hser).
  cbn [fst snd status]. split; [done|].
  unfold SignupView.post. rewrite Hn, He, decide_False by congruence.
  rewrite users_set_users.
  fold (get_user_or_404 n
          (users db ++
           [mkUser (next_pk (users db)) n e "" "" "" "user"
                   (send_confirmation_email e mail).1])).
  erewrite get_user_or_404_created; [|reflexivity|exact Hfree].
  cbn [email]. by rewrite decide_False by (by intros []).
Qed.

(** Signup keeps usernames unique and never creates a user named "me",
    for a serializer that validates the username as it was submitted. *)
Theorem signup_keeps_usernames_unique db mail request :
  NoDup (username <$> users db) →
  (∀ n e, SignUpSerializer (users db) (data request) = Some (n, e) →
          data request !! "username" = Some n) →
  let db' := (SignupView.post db mail request).1.1 in
  NoDup (username <$> users db') ∧
  (∀ u, u ∈ users db' → username u = "me" → u ∈ users db).
Proof.
  intros Hnodup Hecho db'. subst db'.
  destruct (post_cases db mail request)
    as [(resp & -> & _)|(n & e & Hme & Hnone & Hser)]; [done|].
  rewrite (post_created _ _ _ _ _ Hme Hnone Hser).
  cbn [fst set_users users].
  pose proof (Hecho n e Hser) as Hn. rewrite Hn in Hme, Hnone.
  split.
  - rewrite fmap_app. apply NoDup_app. split; [done|]. split.
    + intros m Hm Hin. apply list_elem_of_singleton in Hin. cbn in Hin. subst m.
      apply list_elem_of_fmap in Hm as (u & Hu & Hin).
      unfold filter_username in Hnone.
      destruct (filter (λ u, username u = n) (users db)) as [|x l] eqn:Hf;
        [|done].
      by apply (filter_nil_not_elem_of _ _ u Hf).
    + apply NoDup_singleton.
  - intros u [Hu|Hu]%elem_of_app; [done|].
    apply list_elem_of_singleton in Hu. subst u. cbn. congruence.
Qed.

(** ** The "me" action, continued *)

Lemma set_users_id db : set_users (users db) db = db.
Proof. by destruct db. Qed.

Lemma save_user_id u us :
  (∀ x, x ∈ us → pk x = pk u → x = u) → save_user u us = us.
Proof.
  intros Hu. unfold save_user.
  induction us as [|y us IH]; [done|]. rewrite fmap_cons. f_equal.
  - case_decide as Hy; [|done]. symmetry. apply Hu; [by left|done].
  - apply IH. intros x Hx. apply Hu. by right.
Qed.

Lemma update_instance_empty u : update_instance u ∅ = u.
Proof. by destruct u. Qed.

(** The action [me] touches the row of the caller only: it answers 200
    or 400, on 400 the store is as it was, and in every case the titles and
    the reviews, the number and the primary keys of the users, and every
    row whose key is not the caller's are unchanged. *)
Theorem me_touches_only_the_caller db u request :
  let out := UsersViewSet.get_update_me db u request in
  (status out.2 = HTTP_200_OK ∨ status out.2 = HTTP_400_BAD_REQUEST) ∧
  (status out.2 = HTTP_400_BAD_REQUEST → out.1 = db) ∧
  titles out.1 = titles db ∧
  reviews out.1 = reviews db ∧
  pk <$> users out.1 = pk <$> users db ∧
  (∀ i x, users db !! i = Some x → pk x ≠ pk u → users out.1 !! i = Some x).
Proof.
  intros out. subst out. unfold UsersViewSet.get_update_me.
  destruct (UserSerializer (users db) u (data request)) as [vd|];
    [|by split_and!; auto].
  cbn [fst snd status]. rewrite users_set_users.
  split_and!; [by left|done|done|done| |].
  - unfold save_user. rewrite <-list_fmap_compose.
    apply list_fmap_ext. intros i x _. cbn. by case_decide.
  - intros i x Hx Hpk. unfold save_user. rewrite list_lookup_fmap, Hx.
    cbn. by rewrite decide_False.
Qed.

(** A request to [me] whose validated data are empty, so a GET without a
    body, or whose validated data hold only the role, for a PATCH, changes
    nothing and is answered 200, the primary key identifying the row of the
    caller. *)
Theorem me_without_fields_changes_nothing db u request vd :
  (∀ x, x ∈ users db → pk x = pk u → x = u) →
  UserSerializer (users db) u (data request) = Some vd →
  vd = ∅ ∨ (method request = "PATCH" ∧ delete "role" vd = ∅) →
  UsersViewSet.get_update_me db u request
  = (db, mkResponse HTTP_200_OK (Fields (UserSerializer_data u))).
Proof.
  intros Hu Hser Hvd. unfold UsersViewSet.get_update_me. rewrite Hser.
  assert ((if decide (method request = "PATCH")
           then delete "role" vd else vd) = ∅) as ->.
  { destruct Hvd as [->|[Hm ->]].
    - case_decide; [apply delete_empty|done].
    - by rewrite decide_True. }
  rewrite update_instance_empty, save_user_id by done.
  by rewrite set_users_id.
Qed.

(** ** Reviews, continued *)

Lemma get_title_cases db request :
  match ReviewViewSet.get_title db request with
  | inr t => t ∈ titles db ∧ title_id t = kwargs_title_id request
  | inl e =>
      e = Http404_raised ∧
      ∀ t, t ∈ titles db → title_id t ≠ kwargs_title_id request
  end.
Proof.
  unfold ReviewViewSet.get_title.
  destruct (head _) as [t|] eqn:Hhead.
  - apply head_Some_elem_of in Hhead.
    by apply list_elem_of_filter in Hhead as [? ?].
  - split; [done|]. intros t Ht Hid.
    destruct (filter _ (titles db)) as [|x l] eqn:Hf; [|done].
    by apply (filter_nil_not_elem_of _ _ t Hf).
Qed.

Lemma create_outcome db author request :
  (∃ resp,
      ReviewViewSet.create db author request = (db, resp) ∧
      (status resp = HTTP_400_BAD_REQUEST ∨
       status resp = HTTP_404_NOT_FOUND ∧
       ∀ t, t ∈ titles db → title_id t ≠ kwargs_title_id request)) ∨
  (∃ text' score' t resp,
      ReviewSerializer (data request) = Some (text', score') ∧
      t ∈ titles db ∧ title_id t = kwargs_title_id request ∧
      filter_title_author (title_id t) (pk author) (reviews db) = [] ∧
      ReviewViewSet.create db author request
      = (set_reviews
           (reviews db ++
            [mkReview (next_review_id (reviews db)) (title_id t) (pk author)
                      text' score'])
           db, resp) ∧
      status resp = HTTP_201_CREATED).
Proof.
  unfold ReviewViewSet.create, ReviewViewSet.perform_create.
  destruct (ReviewSerializer (data request)) as [[text' score']|];
    [|left; eexists; split; [done|by left]].
  destruct (decide (filter_title_author _ _ _ ≠ [])) as [|Hnew];
    [left; eexists; split; [done|by left]|].
  pose proof (get_title_cases db request) as Ht.
  destruct (ReviewViewSet.get_title db request) as [e|t].
  - destruct Ht as [-> Ht]. left. eexists. split; [done|]. by right.
  - destruct Ht as [Ht Hid]. right. exists text', score', t. eexists.
    split_and!; [done|done|done| |done|done].
    rewrite Hid.
    by destruct (decide (filter_title_author (kwargs_title_id request)
                           (pk author) (reviews db) = [])).
Qed.

Lemma create_201 db author request :
  status (ReviewViewSet.create db author request).2 = HTTP_201_CREATED →
  ∃ text' score' t,
    ReviewSerializer (data request) = Some (text', score') ∧
    t ∈ titles db ∧ title_id t = kwargs_title_id request ∧
    titles (ReviewViewSet.create db author request).1 = titles db ∧
    reviews (ReviewViewSet.create db author request).1
    = reviews db ++
      [mkReview (next_review_id (reviews db)) (title_id t) (pk author)
                text' score'].
Proof.
  destruct (create_outcome db author request)
    as [(resp & -> & [Hst|[Hst _]])
       |(text' & score' & t & resp & Hser & Ht & Hid & _ & -> & _)];
    cbn [fst snd]; [by rewrite Hst|by rewrite Hst|].
  intros _. by exists text', score', t.
Qed.

Lemma create_not_201 db author request :
  status (ReviewViewSet.create db author request).2 ≠ HTTP_201_CREATED →
  (ReviewViewSet.create db author request).1 = db.
Proof.
  destruct (create_outcome db author request)
    as [(resp & -> & _)|(text' & score' & t & resp & _ & _ & _ & _ & -> & Hst)];
    cbn [fst snd]; [done|]. by intros [].
Qed.


Lemma apply_op_have_titles db op :
  reviews_have_titles db → reviews_have_titles (apply_op db op).
Proof.
  unfold reviews_have_titles. intros Hinv.
  destruct op as [author request|id text' score'|id]; cbn [apply_op].
  - destruct (decide (status (ReviewViewSet.create db author request).2
                      = HTTP_201_CREATED)) as [Hst|Hst].
    + destruct (create_201 _ _ _ Hst)
        as (text' & score' & t & _ & Ht & _ & -> & ->).
      intros r [Hr|Hr]%elem_of_app; [by apply Hinv|].
      apply list_elem_of_singleton in Hr. subst r. by exists t.
    + by rewrite (create_not_201 _ _ _ Hst).
  - unfold ReviewViewSet.partial_update. cbn [set_reviews reviews titles].
    intros r (r0 & -> & Hr0)%list_elem_of_fmap.
    destruct (Hinv r0 Hr0) as (t & Ht & Hid). exists t.
    split; [done|]. by case_decide.
  - unfold ReviewViewSet.destroy. cbn [set_reviews reviews titles].
    intros r [_ Hr]%list_elem_of_filter. by apply Hinv.
Qed.

(** No run of operations on reviews stores a review of a title that is
    not in the table. *)
Theorem reviews_keep_their_titles db ops :
  reviews_have_titles db → reviews_have_titles (foldl apply_op db ops).
Proof.
  revert db. induction ops as [|op ops IH]; intros db Hinv; [done|].
  cbn [foldl]. by apply IH, apply_op_have_titles.
Qed.

(** The list of the reviews of a title: a path whose title does not exist
    raises [Http404] rather than giving an empty list; otherwise the list
    holds exactly the reviews of that title, in the order of the table, and,
    the reviews being unique per title and author, no author twice. *)
Theorem review_list_scoped db request :
  match ReviewViewSet_get_queryset db request with
  | inl e =>
      e = Http404_raised ∧
      ∀ t, t ∈ titles db → title_id t ≠ kwargs_title_id request
  | inr rs =>
      (∃ t, t ∈ titles db ∧ title_id t = kwargs_title_id request) ∧
      rs `sublist_of` reviews db ∧
      (∀ r, r ∈ rs ↔ r ∈ reviews db ∧ review_title r = kwargs_title_id request) ∧
      (unique_reviews db → NoDup (review_author <$> rs))
  end.
Proof.
  unfold ReviewViewSet_get_queryset.
  pose proof (get_title_cases db request) as Ht.
  destruct (ReviewViewSet.get_title db request) as [e|t]; [done|].
  destruct Ht as [Ht Hid]. rewrite Hid.
  split_and!; [by exists t|apply sublist_filter| |].
  - intros r. rewrite list_elem_of_filter. split; intros [? ?]; by split.
  - unfold unique_reviews. intros Huniq.
    assert (NoDup (review_key <$>
                   filter (λ r, review_title r = kwargs_title_id request)
                          (reviews db))) as Hkeys.
    { eapply sublist_NoDup; [exact Huniq|].
      apply fmap_sublist, sublist_filter. }
    revert Hkeys. generalize (reviews db). intros l.
    induction l as [|r l IH]; [constructor|].
    rewrite filter_cons. case_decide as Hr; [|done].
    rewrite !fmap_cons, !NoDup_cons. intros [Hnotin Hnodup].
    split; [|by apply IH].
    intros (r' & Ha & Hr')%list_elem_of_fmap. apply Hnotin.
    apply list_elem_of_fmap. exists r'. split; [|done].
    apply list_elem_of_filter in Hr' as Hr''. destruct Hr'' as [Ht' _].
    unfold review_key. by rewrite Hr, Ht', Ha.
Qed.

(** A review that was created is listed: after a review is accepted, the
    list of the reviews of its title is the list as it was with the new
    review at its end. *)
Theorem review_created_is_listed db author request rs :
  status (ReviewViewSet.create db author request).2 = HTTP_201_CREATED →
  ReviewViewSet_get_queryset db request = inr rs →
  ∃ r, ReviewViewSet_get_queryset (ReviewViewSet.create db author request).1
                                  request
       = inr (rs ++ [r]) ∧
       review_author r = pk author ∧
       review_title r = kwargs_title_id request.
Proof.
  intros Hst.
  destruct (create_201 _ _ _ Hst)
    as (text' & score' & t & _ & Ht & Hid & Htitles & Hrs).
  unfold ReviewViewSet_get_queryset, ReviewViewSet.get_title.
  rewrite Htitles, Hrs.
  destruct (head _) as [t'|] eqn:Hhead; [|done].
  intros [= <-]. eexists. rewrite filter_app, filter_cons_True.
  - split; [reflexivity|]. by rewrite Hid.
  - cbn. apply head_Some_elem_of in Hhead.
    apply list_elem_of_filter in Hhead as [-> _]. done.
Qed.

(** ** Titles, continued *)

Lemma sum_Z_bounds lo hi (l : list Z) :
  (∀ s, s ∈ l → lo ≤ s ≤ hi) →
  lo * Z.of_nat (length l) ≤ sum_Z l ≤ hi * Z.of_nat (length l).
Proof.
  induction l as [|x l IH]; intros Hl; [cbn; lia|].
  cbn [sum_Z foldr length]. fold (sum_Z l).
  assert (lo ≤ x ≤ hi) by (apply Hl; left).
  assert (lo * Z.of_nat (length l) ≤ sum_Z l ≤ hi * Z.of_nat (length l))
    by (apply IH; intros s Hs; apply Hl; by right).
  lia.
Qed.

Lemma mean_bounds lo hi (l : list Z) :
  l ≠ [] →
  (∀ s, s ∈ l → lo ≤ s ≤ hi) →
  (Qc_of_Z lo ≤ Qc_of_Z (sum_Z l) / Qc_of_Z (Z.of_nat (length l))
   ∧ Qc_of_Z (sum_Z l) / Qc_of_Z (Z.of_nat (length l)) ≤ Qc_of_Z hi)%Qc.
Proof.
  intros Hne Hl.
  set (n := Qc_of_Z (Z.of_nat (length l))).
  assert (0 < Z.of_nat (length l)) as Hlen by (destruct l; [done|cbn; lia]).
  assert (0 < n)%Qc as Hn by (subst n; rewrite <-Z2Qc_inj_0; by apply (proj1 (Z2Qc_inj_lt _ _))).
  assert (n ≠ 0%Qc) as Hn0 by (intros Hz; rewrite Hz in Hn; by apply Qclt_not_eq in Hn).
  assert ((Qc_of_Z (sum_Z l) / n) * n = Qc_of_Z (sum_Z l))%Qc as Hmean
    by (rewrite Qcmult_comm; by apply Qcmult_div_r).
  destruct (sum_Z_bounds lo hi l Hl) as [Hlo Hhi].
  split; apply (Qcmult_lt_0_le_reg_r _ _ n Hn); rewrite Hmean; subst n;
    rewrite <-Z2Qc_inj_mul; by apply (proj1 (Z2Qc_inj_le _ _)).
Qed.

(** The rating a title is served with lies between the bounds of the
    scores of its reviews; in particular it is the score itself when all
    the reviews of the title have the same score, as when there is one
    review. *)
Theorem rating_within_scores db request a lo hi :
  a ∈ TitleViewSet.list db request ∨ TitleViewSet.retrieve db request = Some a →
  (∀ s, s ∈ title_scores db (title a) → lo ≤ s ≤ hi) →
  match rating a with
  | Some mean =>
      title_scores db (title a) ≠ [] ∧
      (Qc_of_Z lo ≤ mean ∧ mean ≤ Qc_of_Z hi)%Qc ∧
      (lo = hi → mean = Qc_of_Z lo)
  | None => title_scores db (title a) = []
  end.
Proof.
  intros Ha%served_in_queryset Hl.
  apply elem_of_get_queryset in Ha as (t & Ht & ->).
  cbn [title rating annotate_rating] in *.
  rewrite Avg_reviews__score.
  destruct (title_scores db t) as [|s scores] eqn:Hs; [done|].
  destruct (mean_bounds lo hi (s :: scores)) as [Hlo Hhi]; [done|done|].
  split_and!; [done|done|done|].
  intros <-. by apply Qcle_antisym.
Qed.

(** An accepted review adds its score to the scores of its title and
    leaves the rating of every other title as it was. *)
Theorem review_changes_one_rating db author request t :
  status (ReviewViewSet.create db author request).2 = HTTP_201_CREATED →
  let db' := (ReviewViewSet.create db author request).1 in
  (title_id t = kwargs_title_id request →
     ∃ score', (∃ text', ReviewSerializer (data request) = Some (text', score')) ∧
               title_scores db' t = title_scores db t ++ [score']) ∧
  (title_id t ≠ kwargs_title_id request →
     annotate_rating (reviews db') t = annotate_rating (reviews db) t).
Proof.
  intros Hst db'. subst db'.
  destruct (create_201 _ _ _ Hst)
    as (text' & score' & t' & Hser & _ & Hid & _ & Hrs).
  split; intros Ht.
  - exists score'. split; [by exists text'|].
    unfold title_scores. rewrite Hrs, filter_app, fmap_app.
    rewrite filter_cons_True by (cbn; congruence). done.
  - unfold annotate_rating, reviews__score. rewrite Hrs, filter_app.
    rewrite filter_cons_False by (cbn; congruence).
    by rewrite app_nil_r.
Qed.

(** The query set of the titles holds every title of the table once, with
    nothing else; [retrieve] raises [Http404] exactly when no title that the
    filters keep has the id of the path, and otherwise serves a title with
    that id that the filters keep. *)
Theorem titles_served_once db request :
  title <$> TitleViewSet.get_queryset db ≡ₚ titles db ∧
  (TitleViewSet.retrieve db request = None ↔
     ∀ t, t ∈ titles db → TitleFilter request t = true →
          title_id t ≠ kwargs_title_id request) ∧
  (∀ a, TitleViewSet.retrieve db request = Some a →
        title a ∈ titles db ∧ TitleFilter request (title a) = true ∧
        title_id (title a) = kwargs_title_id request).
Proof.
  split_and!.
  - unfold TitleViewSet.get_queryset, order_by_year_desc.
    rewrite merge_sort_Permutation, <-list_fmap_compose.
    by rewrite (list_fmap_ext _ id (titles db)), list_fmap_id.
  - unfold TitleViewSet.retrieve. split.
    + intros Hnone t Ht Hkeep Hid.
      destruct (filter _ (TitleViewSet.filter_queryset db request))
        as [|x l] eqn:Hf; [|done].
      apply (filter_nil_not_elem_of _ _ (annotate_rating (reviews db) t) Hf);
        [done|].
      unfold TitleViewSet.filter_queryset.
      apply list_elem_of_filter. split; [done|].
      apply elem_of_get_queryset. by exists t.
    + intros Hnone.
      destruct (head _) as [a|] eqn:Hhead; [|done].
      apply head_Some_elem_of in Hhead.
      apply list_elem_of_filter in Hhead as [Hid Ha].
      apply list_elem_of_filter in Ha as [Hkeep Ha].
      apply elem_of_get_queryset in Ha as (t & Ht & ->).
      by destruct (Hnone t Ht Hkeep Hid).
  - unfold TitleViewSet.retrieve. intros a Hhead.
    apply head_Some_elem_of in Hhead.
    apply list_elem_of_filter in Hhead as [Hid Ha].
    apply list_elem_of_filter in Ha as [Hkeep Ha].
    apply elem_of_get_queryset in Ha as (t & Ht & ->). done.
Qed.

(** ** Permissions and routes *)






Lemma action_map_titles_list :
  action_map TitlesList
  = <["head" := "list"]> (<["get" := "list"]> (<["post" := "create"]> ∅)).
Proof. reflexivity. Qed.

Lemma action_map_titles_detail :
  action_map TitlesDetail
  = <["head" := "retrieve"]>
      (<["get" := "retrieve"]>
         (<["put" := "update"]>
            (<["patch" := "partial_update"]>
               (<["delete" := "destroy"]> ∅)))).
Proof. reflexivity. Qed.

(** On the routes of the titles the serializer of the reads,
    [GetTitleSerializer], is chosen exactly for GET and HEAD; every other
    verb, bound to an action or not, gets [TitleSerializer]. *)
Theorem read_serializer_for_reads_only e request :
  resource e = Titles →
  TitleViewSet_get_serializer_class (view_action e request) = GetTitleSerializer
  ↔ lower (method request) ∈ ["get"; "head"].
Proof.
  intros He. unfold view_action, TitleViewSet_get_serializer_class.
  generalize (lower (method request)). intros m.
  cbv zeta.
  assert (∀ a : option string,
            a ∈ [Some "list"; Some "retrieve"]
            ↔ a = Some "list" ∨ a = Some "retrieve") as Hin.
  { intros a. rewrite !elem_of_cons, elem_of_nil. tauto. }
  assert (m ∈ ["get"; "head"] ↔ m = "get" ∨ m = "head") as ->
    by (rewrite !elem_of_cons, elem_of_nil; tauto).
  destruct e; try discriminate He.
  - rewrite action_map_titles_list.
    destruct (decide (m = "options")) as [->|?].
    { rewrite decide_False by (rewrite Hin; by intros [|]).
      split; [done|]. by intros [|]. }
    destruct (decide (m = "head")) as [->|?].
    { rewrite lookup_insert_eq, decide_True by (rewrite Hin; by left).
      split; [by right|done]. }
    rewrite lookup_insert_ne by done.
    destruct (decide (m = "get")) as [->|?].
    { rewrite lookup_insert_eq, decide_True by (rewrite Hin; by left).
      split; [by left|done]. }
    rewrite lookup_insert_ne by done.
    destruct (decide (m = "post")) as [->|?].
    { rewrite lookup_insert_eq, decide_False by (rewrite Hin; by intros [|]).
      split; [done|]. by intros [|]. }
    rewrite lookup_insert_ne, lookup_empty by done.
    rewrite decide_False by (rewrite Hin; by intros [|]).
    split; [done|]. by intros [|].
  - rewrite action_map_titles_detail.
    destruct (decide (m = "options")) as [->|?].
    { rewrite decide_False by (rewrite Hin; by intros [|]).
      split; [done|]. by intros [|]. }
    destruct (decide (m = "head")) as [->|?].
    { rewrite lookup_insert_eq, decide_True by (rewrite Hin; by right).
      split; [by right|done]. }
    rewrite lookup_insert_ne by done.
    destruct (decide (m = "get")) as [->|?].
    { rewrite lookup_insert_eq, decide_True by (rewrite Hin; by right).
      split; [by left|done]. }
    rewrite lookup_insert_ne by done.
    destruct (decide (m = "put")) as [->|?].
    { rewrite lookup_insert_eq, decide_False by (rewrite Hin; by intros [|]).
      split; [done|]. by intros [|]. }
    rewrite lookup_insert_ne by done.
    destruct (decide (m = "patch")) as [->|?].
    { rewrite lookup_insert_eq, decide_False by (rewrite Hin; by intros [|]).
      split; [done|]. by intros [|]. }
    rewrite lookup_insert_ne by done.
    destruct (decide (m = "delete")) as [->|?].
    { rewrite lookup_insert_eq, decide_False by (rewrite Hin; by intros [|]).
      split; [done|]. by intros [|]. }
    rewrite lookup_insert_ne, lookup_empty by done.
    rewrite decide_False by (rewrite Hin; by intros [|]).
    split; [done|]. by intros [|].
Qed.

(** ** Comments *)

Section Comments.
Variable CommentSerializer : Data → option string.
Variable CommentSerializer_data : Comment → Data.

#[local] Abbreviation get_review := CommentViewSet.get_review.
#[local] Abbreviation get_queryset := CommentViewSet.get_queryset.
#[local] Abbreviation create := (CommentViewSet.create CommentSerializer CommentSerializer_data).
#[local] Abbreviation post_comments :=
  (CommentViewSet.post_comments CommentSerializer CommentSerializer_data).

Lemma get_review_cases db rid :
  match get_review db rid with
  | inr r => r ∈ reviews db ∧ review_id r = rid
  | inl e => e = Http404_raised ∧ ∀ r, r ∈ reviews db → review_id r ≠ rid
  end.
Proof.
  unfold CommentViewSet.get_review.
  destruct (head _) as [r|] eqn:Hhead.
  - apply head_Some_elem_of in Hhead.
    by apply list_elem_of_filter in Hhead as [? ?].
  - split; [done|]. intros r Hr Hid.
    destruct (filter _ (reviews db)) as [|x l] eqn:Hf; [|done].
    by apply (filter_nil_not_elem_of _ _ r Hf).
Qed.

Lemma comment_create_201 db comments author rid request text' r :
  CommentSerializer (data request) = Some text' →
  r ∈ reviews db → review_id r = rid →
  ∃ resp,
    create db comments author rid request
    = (comments ++ [mkComment (next_comment_id comments) rid (pk author) text'],
       resp) ∧
    status resp = HTTP_201_CREATED.
Proof.
  intros Hser Hr Hid.
  unfold CommentViewSet.create, CommentViewSet.perform_create. rewrite Hser.
  pose proof (get_review_cases db rid) as Hcases.
  destruct (get_review db rid) as [e|r'].
  - destruct Hcases as [_ Hnone]. by destruct (Hnone r Hr).
  - destruct Hcases as [_ ->]. by eexists.
Qed.

Lemma comment_create_outcome db comments author rid request :
  (∃ resp,
      create db comments author rid request = (comments, resp) ∧
      (status resp = HTTP_400_BAD_REQUEST ∧
       CommentSerializer (data request) = None ∨
       status resp = HTTP_404_NOT_FOUND ∧
       ∀ r, r ∈ reviews db → review_id r ≠ rid)) ∨
  (∃ text' r resp,
      CommentSerializer (data request) = Some text' ∧
      r ∈ reviews db ∧ review_id r = rid ∧
      create db comments author rid request
      = (comments ++
         [mkComment (next_comment_id comments) rid (pk author) text'], resp) ∧
      status resp = HTTP_201_CREATED).
Proof.
  destruct (CommentSerializer (data request)) as [text'|] eqn:Hser.
  - pose proof (get_review_cases db rid) as Hcases.
    destruct (get_review db rid) as [e|r] eqn:Hrev.
    + destruct Hcases as [-> Hnone]. left.
      unfold CommentViewSet.create, CommentViewSet.perform_create.
      rewrite Hser, Hrev. eexists. split; [done|]. by right.
    + destruct Hcases as [Hr Hid]. right.
      destruct (comment_create_201 db comments author rid request text' r
                  Hser Hr Hid) as (resp & Hcreate & Hst).
      by exists text', r, resp.
  - left. unfold CommentViewSet.create. rewrite Hser.
    eexists. split; [done|]. by left.
Qed.


(** Unlike reviews, comments are not limited to one per author: an
    author who posts an accepted body [n] times on a review is answered 201
    every time, and has [n] more comments on that review. *)
Theorem comments_are_not_unique n : ∀ db comments author rid request text' r,
  CommentSerializer (data request) = Some text' →
  r ∈ reviews db → review_id r = rid →
  let out := post_comments db comments author rid request n in
  Forall (λ resp, status resp = HTTP_201_CREATED) out.2 ∧
  length out.2 = n ∧
  length (filter (λ c, comment_review c = rid ∧ comment_author c = pk author)
                 out.1)
  = (length (filter (λ c, comment_review c = rid ∧ comment_author c = pk author)
                    comments) + n)%nat.
Proof.
  induction n as [|n IH]; intros db comments author rid request text' r
    Hser Hr Hid out; subst out.
  - cbn. split_and!; [done|done|lia].
  - cbn [CommentViewSet.post_comments].
    destruct (comment_create_201 db comments author rid request text' r
                Hser Hr Hid) as (resp & -> & Hst).
    specialize (IH db
      (comments ++ [mkComment (next_comment_id comments) rid (pk author) text'])
      author rid request text' r Hser Hr Hid).
    cbv zeta in IH. destruct (post_comments _ _ _ _ _ n) as [cs' resps].
    cbn [fst snd] in *. destruct IH as (Hall & Hlen & Hcount).
    split_and!; [by constructor|cbn; lia|].
    rewrite Hcount, filter_app, length_app.
    rewrite filter_cons_True by done. cbn. lia.
Qed.

(** The comments of a review: a path whose review does not exist raises
    [Http404]; otherwise exactly the comments of that review are listed;
    and a comment that was created is listed, at the end. *)
Theorem comment_list_scoped db comments author rid request :
  match get_queryset db comments rid with
  | inl e => e = Http404_raised ∧ ∀ r, r ∈ reviews db → review_id r ≠ rid
  | inr cs =>
      (∀ c, c ∈ cs ↔ c ∈ comments ∧ comment_review c = rid) ∧
      (status (create db comments author rid request).2 = HTTP_201_CREATED →
       ∃ c, get_queryset db (create db comments author rid request).1 rid
            = inr (cs ++ [c]) ∧
            comment_author c = pk author)
  end.
Proof.
  unfold CommentViewSet.get_queryset.
  pose proof (get_review_cases db rid) as Hcases.
  destruct (get_review db rid) as [e|r]; [done|].
  destruct Hcases as [Hr Hid]. rewrite Hid. split.
  - intros c. rewrite list_elem_of_filter. split; intros [? ?]; by split.
  - intros Hst.
    destruct (comment_create_outcome db comments author rid request)
      as [(resp & Hsame & [[Hbad _]|[Hbad _]])
         |(text' & r' & resp & _ & _ & _ & Hnew & _)];
      [rewrite Hsame in Hst; cbn in Hst; by rewrite Hbad in Hst..|].
    rewrite Hnew. cbn [fst].
    eexists. rewrite filter_app, filter_cons_True by done.
    split; [reflexivity|done].
Qed.
End Comments.

(** ** The string forms of the models *)





End Further.

(** * The statements on the concrete store *)

#[local] Existing Instance yamdb.




(** "me" is refused by both endpoints. *)
Lemma me_rejected_witness :
  data me_request !! "username" = Some "me" ∧
  (∀ n c, TokenObtainWithConfirmationSerializer (data me_request) = Some (n, c) →
          n = "me") ∧
  SignupView.post store no_mail me_request
  = (store, no_mail,
     mkResponse 400 (Detail "Недопустимое значение me для username")) ∧
  status (TokenObtainWithConfirmationView.create store me_request) = 400 ∧
  issues_token (TokenObtainWithConfirmationView.create store me_request) = false.
Proof.
  assert (data me_request !! "username" = Some "me") as Hn by reflexivity.
  assert (∀ n c, TokenObtainWithConfirmationSerializer (data me_request)
                 = Some (n, c) → n = "me") as Hval
    by (intros n c Hser; by injection Hser as <- _).
  destruct (me_rejected store no_mail me_request Hn Hval) as (_ & Hst & Htok).
  split_and!; [exact Hn|exact Hval|reflexivity|exact Hst|exact Htok].
Defined.

(** bob signs up again with his email: 200, nothing changes. *)
Lemma signup_existing_user_witness :
  data (signup_request "bob" "bob@x.com") !! "username" = Some "bob" ∧
  "bob" ≠ "me" ∧
  head (filter_username (Some "bob") (users store)) = Some bob ∧
  (∃ resp, SignupView.post store no_mail (signup_request "bob" "bob@x.com")
           = (store, no_mail, resp) ∧ status resp = 200).
Proof.
  assert ("bob" ≠ "me") as Hme by discriminate.
  split_and!; [reflexivity|exact Hme|reflexivity|].
  exact (proj1 (signup_existing_user store no_mail (signup_request "bob" "bob@x.com")
                  "bob" bob eq_refl Hme eq_refl) eq_refl).
Defined.

(** C2 fails for the reserved name: "me" is an existing user of
    [store_with_me] and the submitted email is the stored one, yet the
    answer is 400 and not 200. *)
Lemma signup_existing_me_counterexample :
  head (filter_username (data (signup_request "me" "me@x.com") !! "username")
                        (users store_with_me)) = Some reserved ∧
  data (signup_request "me" "me@x.com") !! "email" = Some (email reserved) ∧
  status (SignupView.post store_with_me no_mail (signup_request "me" "me@x.com")).2
  = 400 ∧
  status (SignupView.post store_with_me no_mail (signup_request "me" "me@x.com")).2
  ≠ HTTP_200_OK.
Proof. split_and!; done. Qed.




(** bob sends the same body with GET: the role is stored as well. *)
Lemma get_me_saves_body_witness :
  get_by_pk (pk bob) (users store) = Some bob ∧
  UserSerializer (users store) bob (data me_get) = Some (data me_get) ∧
  method me_get = "GET" ∧
  status (UsersViewSet.get_update_me store bob me_get).2 = 200 ∧
  role <$> get_by_pk 1 (users (UsersViewSet.get_update_me store bob me_get).1)
  = Some "admin".
Proof.
  destruct (get_me_saves_body (co := yamdb) store bob me_get (data me_get)
              eq_refl eq_refl)
    as [Hget _].
  destruct (Hget eq_refl) as (Hst & _ & Hrole & _).
  split_and!; [reflexivity|reflexivity|reflexivity|exact Hst|].
  exact (Hrole "admin" eq_refl).
Defined.




(** The title of 1979 is listed before the title of 1961. *)
Lemma list_ordered_by_year_desc_witness :
  TitleViewSet.list store (title_request 0) !! 0%nat
  = Some (annotate_rating (reviews store) stalker) ∧
  TitleViewSet.list store (title_request 0) !! 1%nat
  = Some (annotate_rating (reviews store) solaris) ∧
  1961 ≤ 1979.
Proof.
  split_and!; [reflexivity|reflexivity|].
  exact (list_ordered_by_year_desc store (title_request 0) 0 _ _ eq_refl eq_refl).
Defined.

(** The administrator is answered 405 on a title and on a user. *)
Lemma put_not_allowed_witness :
  method (put_request (Some root)) = "PUT" ∧
  check_permissions (get_permissions TitlesDetail) (put_request (Some root)) = None ∧
  check_permissions (get_permissions UsersDetail) (put_request (Some root)) = None ∧
  serve TitlesDetail store (put_request (Some root))
  = (store, mkResponse 405 (Detail "Method not allowed.")) ∧
  status (serve UsersDetail store (put_request (Some root))).2 = 405.
Proof.
  destruct (put_not_allowed TitlesDetail store (put_request (Some root)) eq_refl)
    as (_ & _ & _).
  destruct (put_not_allowed UsersDetail store (put_request (Some root)) eq_refl)
    as (_ & Hst & _).
  split_and!; [reflexivity|reflexivity|reflexivity|reflexivity|].
  exact (Hst eq_refl).
Defined.

(** Whatever the collaborators, an anonymous PUT to a review stops at
    [IsAuthenticatedOrReadOnly]. *)
Lemma put_anonymous_review {co : Collaborators} db request :
  method request = "PUT" → user request = None →
  serve ReviewsDetail db request
  = (db, mkResponse HTTP_401_UNAUTHORIZED (Detail "Not authenticated.")).
Proof.
  intros Hm Hu. unfold serve, dispatch.
  change (permission_classes (as_view ReviewsDetail))
    with (get_permissions ReviewsDetail).
  cbn [get_permissions check_permissions].
  unfold IsAuthenticatedOrReadOnly, IsAuthenticated, permission_denied.
  rewrite Hm, Hu.
  rewrite (bool_decide_eq_false_2 (_ ∈ _)); last first.
  { unfold SAFE_METHODS. rewrite !elem_of_cons, elem_of_nil.
    intros [?|[?|[?|[]]]]; discriminate. }
  by rewrite (bool_decide_eq_false_2 (is_Some _)) by (by intros [??]).
Qed.

(** C7 fails for a caller who is not let through: an anonymous PUT to a
    review is answered 401, not 405. *)
Lemma put_anonymous_counterexample :
  method (put_request None) = "PUT" ∧
  serve ReviewsDetail store (put_request None)
  = (store, mkResponse 401 (Detail "Not authenticated.")) ∧
  status (serve ReviewsDetail store (put_request None)).2
  ≠ HTTP_405_METHOD_NOT_ALLOWED.
Proof.
  split; [reflexivity|].
  rewrite (put_anonymous_review store (put_request None) eq_refl eq_refl).
  split; [reflexivity|discriminate].
Qed.

(** * The further properties on the concrete store *)

Lemma erin_echoed n e :
  SignUpSerializer (users store) (data (signup_request "erin" "erin@x.com"))
  = Some (n, e) →
  data (signup_request "erin" "erin@x.com") !! "username" = Some n.
Proof. intros Hser. by injection Hser as <- _. Defined.

Lemma store_usernames_unique : NoDup (username <$> users store).
Proof. apply (bool_decide_unpack _). exact I. Defined.

Lemma bob_is_row_1 x : x ∈ users store → pk x = pk bob → x = bob.
Proof.
  intros Hx Hpk. unfold store, users in Hx.
  repeat (apply elem_of_cons in Hx as [->|Hx]; [done || discriminate Hpk|]).
  by apply elem_of_nil in Hx.
Defined.

Lemma store_reviews_have_titles : reviews_have_titles store.
Proof.
  intros r Hr. exists solaris. unfold store, reviews in Hr.
  repeat (apply elem_of_cons in Hr as [->|Hr]; [split; [by left|done]|]).
  by apply elem_of_nil in Hr.
Defined.


(** erin signs up twice: the second answer is 200 and nothing changes. *)
Lemma signup_twice_witness :
  data (signup_request "erin" "erin@x.com") !! "username" = Some "erin" ∧
  data (signup_request "erin" "erin@x.com") !! "email" = Some "erin@x.com" ∧
  SignUpSerializer (users store) (data (signup_request "erin" "erin@x.com"))
  = Some ("erin", "erin@x.com") ∧
  (SignupView.post
     (SignupView.post store no_mail (signup_request "erin" "erin@x.com")).1.1
     (SignupView.post store no_mail (signup_request "erin" "erin@x.com")).1.2
     (signup_request "erin" "erin@x.com")).1
  = (SignupView.post store no_mail (signup_request "erin" "erin@x.com")).1.
Proof.
  assert ("erin" ≠ "me") as Hn by discriminate.
  split_and!; [reflexivity|reflexivity|reflexivity|].
  exact (proj2 (proj2 (signup_twice (co := yamdb) store no_mail
                         (signup_request "erin" "erin@x.com")
                         "erin" "erin@x.com"
                         eq_refl eq_refl Hn eq_refl eq_refl))).
Defined.

(** After erin has signed up the usernames are still unique. *)
Lemma signup_keeps_usernames_unique_witness :
  NoDup (username <$> users store) ∧
  NoDup (username
           <$> users (SignupView.post store no_mail
                        (signup_request "erin" "erin@x.com")).1.1).
Proof.
  split; [exact store_usernames_unique|].
  exact (proj1 (signup_keeps_usernames_unique (co := yamdb) store no_mail
                  (signup_request "erin" "erin@x.com")
                  store_usernames_unique erin_echoed)).
Defined.

(** bob reads [me] without a body: nothing changes. *)
Lemma me_without_fields_changes_nothing_witness :
  UserSerializer (users store) bob (data (request_of "GET" (Some bob) [] 0))
  = Some ∅ ∧
  (UsersViewSet.get_update_me store bob (request_of "GET" (Some bob) [] 0)).1
  = store.
Proof.
  split; [reflexivity|].
  exact (f_equal fst
           (me_without_fields_changes_nothing (co := yamdb) store bob
              (request_of "GET" (Some bob) [] 0) ∅
              bob_is_row_1 eq_refl (or_introl eq_refl))).
Defined.

(** A run of operations on the store keeps every review on a title. *)
Lemma reviews_keep_their_titles_witness :
  reviews_have_titles store ∧
  reviews_have_titles
    (foldl apply_op store
       [Create carol (review_request 1); Create dave (review_request 7);
        Destroy 1; PartialUpdate 2 (Some "fast") None]).
Proof.
  split; [exact store_reviews_have_titles|].
  exact (reviews_keep_their_titles store _ store_reviews_have_titles).
Defined.

(** carol's review of the first title is listed after the two others. *)
Lemma review_created_is_listed_witness :
  status (ReviewViewSet.create store carol (review_request 1)).2 = 201 ∧
  ReviewViewSet_get_queryset store (review_request 1)
  = inr [mkReview 1 1 1 "deep" 8; mkReview 2 1 2 "slow" 7] ∧
  ∃ r, ReviewViewSet_get_queryset
         (ReviewViewSet.create store carol (review_request 1)).1
         (review_request 1)
       = inr ([mkReview 1 1 1 "deep" 8; mkReview 2 1 2 "slow" 7] ++ [r]) ∧
       review_author r = 4%nat ∧ review_title r = 1%nat.
Proof.
  split_and!; [reflexivity|reflexivity|].
  exact (review_created_is_listed (co := yamdb) store carol (review_request 1)
           _ eq_refl eq_refl).
Defined.

(** The rating of the first title lies between 7 and 8. *)
Lemma rating_within_scores_witness :
  TitleViewSet.retrieve store (title_request 1)
  = Some (annotate_rating (reviews store) solaris) ∧
  (∀ s, s ∈ title_scores store solaris → 7 ≤ s ≤ 8) ∧
  match rating (annotate_rating (reviews store) solaris) with
  | Some mean => (Qc_of_Z 7 ≤ mean ∧ mean ≤ Qc_of_Z 8)%Qc
  | None => False
  end.
Proof.
  assert (∀ s, s ∈ title_scores store solaris → 7 ≤ s ≤ 8) as Hscores.
  { intros s Hs. change (title_scores store solaris) with [8; 7] in Hs.
    repeat (apply elem_of_cons in Hs as [->|Hs]; [lia|]).
    by apply elem_of_nil in Hs. }
  split_and!; [reflexivity|exact Hscores|].
  pose proof (rating_within_scores (co := yamdb) store (title_request 1)
                (annotate_rating (reviews store) solaris) 7 8
                (or_intror eq_refl) Hscores) as Hmean.
  destruct (rating (annotate_rating (reviews store) solaris)) as [mean|].
  - exact (proj1 (proj2 Hmean)).
  - discriminate Hmean.
Defined.

(** carol's review adds 9 to the scores of the first title and leaves the
    rating of the second title as it was. *)
Lemma review_changes_one_rating_witness :
  status (ReviewViewSet.create store carol (review_request 1)).2 = 201 ∧
  title_id solaris = kwargs_title_id (review_request 1) ∧
  title_id stalker ≠ kwargs_title_id (review_request 1) ∧
  (∃ score',
      (∃ text', ReviewSerializer (data (review_request 1)) = Some (text', score')) ∧
      title_scores (ReviewViewSet.create store carol (review_request 1)).1 solaris
      = title_scores store solaris ++ [score']) ∧
  annotate_rating
    (reviews (ReviewViewSet.create store carol (review_request 1)).1) stalker
  = annotate_rating (reviews store) stalker.
Proof.
  assert (title_id stalker ≠ kwargs_title_id (review_request 1)) as Hother
    by discriminate.
  split_and!; [reflexivity|reflexivity|exact Hother| |].
  - exact (proj1 (review_changes_one_rating (co := yamdb) store carol
                    (review_request 1) solaris eq_refl) eq_refl).
  - exact (proj2 (review_changes_one_rating (co := yamdb) store carol
                    (review_request 1) stalker eq_refl) Hother).
Defined.



(** The list of the titles is rendered with the serializer of the reads. *)
Lemma read_serializer_for_reads_only_witness :
  resource TitlesList = Titles ∧
  lower (method (title_request 0)) ∈ ["get"; "head"] ∧
  TitleViewSet_get_serializer_class (view_action TitlesList (title_request 0))
  = GetTitleSerializer.
Proof.
  assert (lower (method (title_request 0)) ∈ ["get"; "head"]) as Hget
    by (left).
  split_and!; [reflexivity|exact Hget|].
  exact (proj2 (read_serializer_for_reads_only TitlesList (title_request 0)
                  eq_refl) Hget).
Defined.

(** alice comments twice on the first review: both comments are stored. *)
Lemma comments_are_not_unique_witness :
  (λ d : Data, d !! "text") (data (review_request 1)) = Some "again" ∧
  mkReview 1 1 1 "deep" 8 ∈ reviews store ∧
  length
    (CommentViewSet.post_comments (λ d, d !! "text") (λ _, ∅)
       store [] alice 1 (review_request 1) 2).1 = 2%nat ∧
  Forall (λ resp, status resp = 201)
    (CommentViewSet.post_comments (λ d, d !! "text") (λ _, ∅)
       store [] alice 1 (review_request 1) 2).2.
Proof.
  assert (mkReview 1 1 1 "deep" 8 ∈ reviews store) as Hr by (left).
  split_and!; [reflexivity|exact Hr|reflexivity|].
  exact (proj1 (comments_are_not_unique (λ d, d !! "text") (λ _, ∅) 2
                  store [] alice 1%nat (review_request 1) "again"
                  (mkReview 1 1 1 "deep" 8) eq_refl Hr eq_refl)).
Defined.
